(** * libgnome-stubs: the [gnome_url_show] and [gnome_vfs_init] stubs

    A shallow embedding of [libgnome-stubs/libgnome2-stub.c] and
    [libgnome-stubs/libgnomevfs2-stub.c].

    The C functions are written as programs over the system calls they
    make ([fork], [execvp], [waitpid], [exit], [fprintf(stderr, ...)]),
    and the calls are given a meaning by a small model of a POSIX process
    and of the kernel's table of children. *)

From Stdlib Require Import ZArith String Ascii List Lia.
From stdpp Require Import base gmap strings.
Import ListNotations.

Open Scope string_scope.
Open Scope Z_scope.

(** ** Wait status, as [<sys/wait.h>] reads it on Linux *)

Module WaitStatus.

(** How a process ends: [exit(code)] (or a return from [main]), or death
    by a signal, with or without a core dump. *)
Inductive termination : Type :=
| Exited (code : Z)
| Signaled (sig : Z) (core : bool).

(** The [int] the kernel stores through the second argument of
    [waitpid]: the low eight bits of the exit code in bits 8..15, or the
    signal number in bits 0..6 and the core flag in bit 7. *)
Definition wstatus_of (t : termination) : Z :=
  match t with
  | Exited code => Z.shiftl (Z.land code 255) 8
  | Signaled sig core =>
      Z.lor (Z.land sig 127) (if core then 128 else 0)
  end.

(** [#define WTERMSIG(s) ((s) & 0x7f)] *)
Definition WTERMSIG (wstatus : Z) : Z := Z.land wstatus 127.

(** [#define WIFEXITED(s) (WTERMSIG(s) == 0)] *)
Definition WIFEXITED (wstatus : Z) : bool := WTERMSIG wstatus =? 0.

(** [#define WEXITSTATUS(s) (((s) & 0xff00) >> 8)] *)
Definition WEXITSTATUS (wstatus : Z) : Z :=
  Z.shiftr (Z.land wstatus 65280) 8.

End WaitStatus.
Import WaitStatus.

(** ** Programs over system calls *)

(** The calls of the C library and of the kernel that the stubs can make,
    indexed by the type of what the call gives back to the program.
    [Waitpid] gives back the return value and the content of the status
    variable after the call.  [Exit] gives back nothing: it does not
    return.  [Store] is a write through a pointer into the caller's
    memory. *)
Inductive syscall : Type -> Type :=
| Fork : syscall Z
| Execvp (file : string) (argv : list string) : syscall Z
| Waitpid (pid options : Z) : syscall (Z * Z)
| Errno : syscall Z
| Strerror (errnum : Z) : syscall string
| Fprintf_stderr (text : string) : syscall unit
| Exit (status : Z) : syscall Empty_set
| Store (addr value : Z) : syscall unit.

Inductive prog (R : Type) : Type :=
| Ret (r : R)
| Vis {X : Type} (e : syscall X) (k : X -> prog R).

Arguments Ret {R} r.
Arguments Vis {R X} e k.

Fixpoint bind {A B : Type} (m : prog A) (f : A -> prog B) : prog B :=
  match m with
  | Ret a => f a
  | Vis e k => Vis e (fun x => bind (k x) f)
  end.

Definition call {X : Type} (e : syscall X) : prog X := Vis e Ret.

Declare Scope prog_scope.
Delimit Scope prog_scope with prog.
Notation "x <- c1 ;; c2" := (bind c1 (fun x => c2))
  (at level 100, c1 at next level, right associativity) : prog_scope.
Notation "c1 ;;; c2" := (bind c1 (fun _ => c2))
  (at level 100, right associativity) : prog_scope.
Open Scope prog_scope.

Definition fork : prog Z := call Fork.
Definition execvp (file : string) (argv : list string) : prog Z :=
  call (Execvp file argv).
Definition waitpid (pid options : Z) : prog (Z * Z) :=
  call (Waitpid pid options).
Definition errno : prog Z := call Errno.
Definition strerror (errnum : Z) : prog string := call (Strerror errnum).
Definition exit {R : Type} (status : Z) : prog R :=
  Vis (Exit status) (fun v : Empty_set => match v with end).

(** ** libgnome2-stub.c *)

Definition newline : string := String (ascii_of_nat 10) EmptyString.

(** [#define err(fmt, ...)
       fprintf(stderr, "%s(): error: " fmt "\n", __func__, ##__VA_ARGS__);]
    [func] is [__func__] and [msg] is [fmt] with its arguments filled in. *)
Definition err_text (func msg : string) : string :=
  func +:+ "(): error: " +:+ msg +:+ newline.

Definition err (func msg : string) : prog unit :=
  call (Fprintf_stderr (err_text func msg)).

(** [int gnome_url_show(const char *url, void **error)].  [url] is the
    string the pointer refers to, [error] is the address the caller
    passed (0 for a null pointer). *)
Definition gnome_url_show (url : string) (error : Z) : prog Z :=
  let func := "gnome_url_show" in
  let xdg_open := ["/usr/bin/xdg-open"; url] in
  pid <- fork ;;
  if pid <? 0 then
    (e <- errno ;; s <- strerror e ;; err func ("fork failed: " +:+ s)) ;;;
    Ret 0
  else
    (if pid =? 0 then
       (* child *)
       r <- execvp (nth 0 xdg_open EmptyString) xdg_open ;;
       if r =? -1 then
         (e <- errno ;; s <- strerror e ;;
          err func ("spawning xdg-open failed: " +:+ s)) ;;;
         exit 1
       else Ret tt
     else Ret tt) ;;;
    (* parent *)
    st <- waitpid pid 0 ;;
    let '(r, wstatus) := st in
    if r =? -1 then
      (* failed to wait on child process *)
      (e <- errno ;; s <- strerror e ;;
       err func ("waitpid failed: " +:+ s +:+ newline)) ;;;
      Ret 0
    else if WIFEXITED wstatus then
      Ret (if WEXITSTATUS wstatus =? 0 then 1 else 0)
    else
      err func "xdg-open terminated abnormally" ;;;
      Ret 0.

(** ** libgnomevfs2-stub.c *)

(** [int gnome_vfs_init(void) { return 1; }] *)
Definition gnome_vfs_init : prog Z := Ret 1.

(** ** The process and the kernel *)

(** Which process makes a call: the one that called the stub, or the
    child that [fork] made of it. *)
Inductive proc : Type := Caller | Forked.

(** What a run leaves behind, in order.  A call is recorded with what it
    gave back; [None] stands for a call that does not come back
    ([execvp] that replaced the program, [waitpid] that blocks for
    ever). *)
Inductive event : Type :=
| EvFork (ret : Z)
| EvExecvp (p : proc) (file : string) (argv : list string) (ret : option Z)
| EvWaitpid (p : proc) (pid options : Z) (ret : option (Z * Z))
| EvStderr (p : proc) (text : string)
| EvExit (p : proc) (status : Z)
| EvStore (p : proc) (addr value : Z).

Inductive fork_result : Type :=
| ForkOk (pid : positive)
| ForkFails (errnum : Z).

(** [execvp] either fails with an error number, or replaces the program:
    the new program then ends some way, or never ends ([None]). *)
Inductive exec_result : Type :=
| ExecFails (errnum : Z)
| ExecRuns (fate : option termination).

(** What the stub cannot decide: whether the kernel makes a process, what
    lies at a path and how it behaves on its arguments, whether a wait is
    cut short ([Some errnum]), the table of [strerror], and the
    indeterminate content of an uninitialised [int]. *)
Record oracle : Type := {
  os_fork : fork_result;
  os_exec : string -> list string -> exec_result;
  os_wait : option Z;
  os_strerror : Z -> string;
  os_junk : Z
}.

(** The caller's process: its [errno], its memory, and the children it
    has not waited for, each with the way it ends ([None]: it never
    ends). *)
Record state : Type := {
  st_errno : Z;
  st_mem : gmap Z Z;
  st_children : gmap Z (option termination)
}.

Definition set_errno (e : Z) (s : state) : state :=
  {| st_errno := e; st_mem := st_mem s; st_children := st_children s |}.

Definition set_mem (m : gmap Z Z) (s : state) : state :=
  {| st_errno := st_errno s; st_mem := m; st_children := st_children s |}.

Definition set_children (c : gmap Z (option termination)) (s : state)
  : state :=
  {| st_errno := st_errno s; st_mem := st_mem s; st_children := c |}.

Definition EAGAIN : Z := 11.
Definition ECHILD : Z := 10.
Definition EINTR : Z := 4.
Definition ENOENT : Z := 2.
Definition EACCES : Z := 13.

(** *** The forked child *)

(** The child runs the rest of the program on its own copy of the
    process, of which only [errno] matters here.  It has no children, so
    its [waitpid] fails with [ECHILD]; a second level of processes is not
    modelled, its [fork] fails with [EAGAIN]. *)
Inductive child_end (R : Type) : Type :=
| ChildEnds (t : termination)
| ChildRunsForEver
| ChildReturns (r : R).

Arguments ChildEnds {R} t.
Arguments ChildRunsForEver {R}.
Arguments ChildReturns {R} r.

Definition child_emit {R : Type} (ev : event) (x : child_end R * list event)
  : child_end R * list event :=
  (fst x, ev :: snd x).

Fixpoint run_child {R : Type} (o : oracle) (p : prog R) (en : Z)
  : child_end R * list event :=
  match p with
  | Ret r => (ChildReturns r, [])
  | Vis e k =>
      match e in syscall X return (X -> prog R) -> child_end R * list event
      with
      | Fork => fun k =>
          child_emit (EvFork (-1)) (run_child o (k (-1)) EAGAIN)
      | Execvp file argv => fun k =>
          match os_exec o file argv with
          | ExecFails errnum =>
              child_emit (EvExecvp Forked file argv (Some (-1)))
                (run_child o (k (-1)) errnum)
          | ExecRuns (Some t) =>
              (ChildEnds t, [EvExecvp Forked file argv None])
          | ExecRuns None =>
              (ChildRunsForEver, [EvExecvp Forked file argv None])
          end
      | Waitpid pid options => fun k =>
          child_emit (EvWaitpid Forked pid options (Some (-1, os_junk o)))
            (run_child o (k (-1, os_junk o)) ECHILD)
      | Errno => fun k => run_child o (k en) en
      | Strerror errnum => fun k => run_child o (k (os_strerror o errnum)) en
      | Fprintf_stderr text => fun k =>
          child_emit (EvStderr Forked text) (run_child o (k tt) en)
      | Exit status => fun _ =>
          (ChildEnds (Exited status), [EvExit Forked status])
      | Store addr value => fun k =>
          child_emit (EvStore Forked addr value) (run_child o (k tt) en)
      end k
  end.

(** How the kernel's table sees the child. *)
Definition fate_of {R : Type} (c : child_end R) : option termination :=
  match c with
  | ChildEnds t => Some t
  | ChildRunsForEver => None
  | ChildReturns _ => None
  end.

(** *** The calling process *)

(** How a call of the stub ends for the process that made it: it returns
    a value, the process exits, its program is replaced, or it blocks for
    ever in [waitpid]. *)
Inductive outcome (R : Type) : Type :=
| Returned (r : R)
| Terminated (status : Z)
| Replaced
| Blocked.

Arguments Returned {R} r.
Arguments Terminated {R} status.
Arguments Replaced {R}.
Arguments Blocked {R}.

Record result (R : Type) : Type := {
  res_outcome : outcome R;
  res_state : state;
  res_trace : list event
}.

Arguments res_outcome {R} r.
Arguments res_state {R} r.
Arguments res_trace {R} r.

Definition emit {R : Type} (ev : event) (x : result R) : result R :=
  {| res_outcome := res_outcome x;
     res_state := res_state x;
     res_trace := ev :: res_trace x |}.

Definition emits {R : Type} (evs : list event) (x : result R) : result R :=
  {| res_outcome := res_outcome x;
     res_state := res_state x;
     res_trace := evs ++ res_trace x |}.

(** The child is run as soon as it is made, up to its end; the kernel
    keeps it in the table until a [waitpid] of the caller succeeds.  A
    [waitpid] that fails takes nothing out of the table.  [waitpid] is
    modelled for the way the stub calls it (one child by its pid, options
    0): on a child that never ends it blocks, on a pid that is not in the
    table it fails with [ECHILD]. *)
Fixpoint run {R : Type} (o : oracle) (p : prog R) (s : state) : result R :=
  match p with
  | Ret r => {| res_outcome := Returned r; res_state := s; res_trace := [] |}
  | Vis e k =>
      match e in syscall X return (X -> prog R) -> result R with
      | Fork => fun k =>
          match os_fork o with
          | ForkFails errnum =>
              emit (EvFork (-1)) (run o (k (-1)) (set_errno errnum s))
          | ForkOk pid =>
              let c := run_child o (k 0) (st_errno s) in
              emit (EvFork (Z.pos pid))
                (emits (snd c)
                   (run o (k (Z.pos pid))
                      (set_children
                         (<[Z.pos pid := fate_of (fst c)]> (st_children s))
                         s)))
          end
      | Execvp file argv => fun k =>
          match os_exec o file argv with
          | ExecFails errnum =>
              emit (EvExecvp Caller file argv (Some (-1)))
                (run o (k (-1)) (set_errno errnum s))
          | ExecRuns _ =>
              {| res_outcome := Replaced; res_state := s;
                 res_trace := [EvExecvp Caller file argv None] |}
          end
      | Waitpid pid options => fun k =>
          let fails errnum :=
            emit (EvWaitpid Caller pid options (Some (-1, os_junk o)))
              (run o (k (-1, os_junk o)) (set_errno errnum s)) in
          match os_wait o with
          | Some errnum => fails errnum
          | None =>
              match st_children s !! pid with
              | Some (Some t) =>
                  emit
                    (EvWaitpid Caller pid options (Some (pid, wstatus_of t)))
                    (run o (k (pid, wstatus_of t))
                       (set_children (delete pid (st_children s)) s))
              | Some None =>
                  {| res_outcome := Blocked; res_state := s;
                     res_trace := [EvWaitpid Caller pid options None] |}
              | None => fails ECHILD
              end
          end
      | Errno => fun k => run o (k (st_errno s)) s
      | Strerror errnum => fun k => run o (k (os_strerror o errnum)) s
      | Fprintf_stderr text => fun k =>
          emit (EvStderr Caller text) (run o (k tt) s)
      | Exit status => fun _ =>
          {| res_outcome := Terminated status; res_state := s;
             res_trace := [EvExit Caller status] |}
      | Store addr value => fun k =>
          emit (EvStore Caller addr value)
            (run o (k tt) (set_mem (<[addr := value]> (st_mem s)) s))
      end k
  end.

(** *** Reading a trace *)

(** What [fork] gave back to the caller, if it was called. *)
Fixpoint fork_answer (tr : list event) : option Z :=
  match tr with
  | [] => None
  | EvFork ret :: _ => Some ret
  | _ :: tr' => fork_answer tr'
  end.

(** What the caller's [waitpid] gave back: its return value and the
    status variable. *)
Fixpoint wait_answer (tr : list event) : option (Z * Z) :=
  match tr with
  | [] => None
  | EvWaitpid Caller _ _ (Some a) :: _ => Some a
  | _ :: tr' => wait_answer tr'
  end.

(** The text a process wrote to the standard error stream. *)
Fixpoint stderr_of (p : proc) (tr : list event) : list string :=
  match tr with
  | [] => []
  | EvStderr Caller text :: tr' =>
      match p with
      | Caller => text :: stderr_of p tr'
      | Forked => stderr_of p tr'
      end
  | EvStderr Forked text :: tr' =>
      match p with
      | Caller => stderr_of p tr'
      | Forked => text :: stderr_of p tr'
      end
  | _ :: tr' => stderr_of p tr'
  end.

Definition is_fork (ev : event) : bool :=
  match ev with EvFork _ => true | _ => false end.
Definition is_execvp (ev : event) : bool :=
  match ev with EvExecvp _ _ _ _ => true | _ => false end.
Definition is_waitpid (ev : event) : bool :=
  match ev with EvWaitpid _ _ _ _ => true | _ => false end.
Definition is_store (ev : event) : bool :=
  match ev with EvStore _ _ _ => true | _ => false end.

(** The argument vectors handed to [execvp]. *)
Fixpoint execvp_args (tr : list event) : list (string * list string) :=
  match tr with
  | [] => []
  | EvExecvp _ file argv _ :: tr' => (file, argv) :: execvp_args tr'
  | _ :: tr' => execvp_args tr'
  end.

(** A line of the [err] macro of [gnome_url_show]. *)
Definition is_diagnostic (text : string) : bool :=
  String.prefix "gnome_url_show(): error: " text.

Definition xdg_open_path : string := "/usr/bin/xdg-open".

(** ** Scenarios *)

Definition strerror_linux (errnum : Z) : string :=
  if errnum =? ENOENT then "No such file or directory"
  else if errnum =? EINTR then "Interrupted system call"
  else if errnum =? ECHILD then "No child processes"
  else if errnum =? EAGAIN then "Resource temporarily unavailable"
  else if errnum =? EACCES then "Permission denied"
  else "Unknown error".

Definition initial : state :=
  {| st_errno := 0; st_mem := ∅; st_children := ∅ |}.

(** A handler that is present and ends the way [t] says, whatever its
    arguments. *)
Definition handler_ends (t : termination) : oracle :=
  {| os_fork := ForkOk 4242;
     os_exec := fun _ _ => ExecRuns (Some t);
     os_wait := None;
     os_strerror := strerror_linux;
     os_junk := 0 |}.

(** No handler at the path. *)
Definition handler_missing : oracle :=
  {| os_fork := ForkOk 4242;
     os_exec := fun _ _ => ExecFails ENOENT;
     os_wait := None;
     os_strerror := strerror_linux;
     os_junk := 0 |}.

(** The kernel makes no process. *)
Definition fork_fails : oracle :=
  {| os_fork := ForkFails EAGAIN;
     os_exec := fun _ _ => ExecRuns (Some (Exited 0));
     os_wait := None;
     os_strerror := strerror_linux;
     os_junk := 0 |}.

(** The wait is cut short by a signal that the caller handles. *)
Definition wait_interrupted : oracle :=
  {| os_fork := ForkOk 4242;
     os_exec := fun _ _ => ExecRuns (Some (Exited 0));
     os_wait := Some EINTR;
     os_strerror := strerror_linux;
     os_junk := 0 |}.

(** The call of [gnome_url_show] by a process in state [s]. *)
Definition url_show (o : oracle) (s : state) (url : string) (error : Z)
  : result Z :=
  run o (gnome_url_show url error) s.

(** The call of [gnome_vfs_init]. *)
Definition vfs_init (o : oracle) (s : state) : result Z :=
  run o gnome_vfs_init s.

(** No child that the call made is left in the table of the children the
    caller has not waited for. *)
Definition no_child_left (res : result Z) : Prop :=
  forall pid : Z,
    fork_answer (res_trace res) = Some pid -> 0 < pid ->
    st_children (res_state res) !! pid = None.

(** What follows a call in the caller's program: when the call returns,
    the caller goes on with [f] from the state the call left; when it does
    not, nothing of [f] is run. *)
Definition continue_with {R : Type} (o : oracle) (first : result Z)
    (f : Z -> prog R) : result R :=
  match res_outcome first with
  | Returned r =>
      emits (res_trace first) (run o (f r) (res_state first))
  | Terminated status =>
      {| res_outcome := Terminated status; res_state := res_state first;
         res_trace := res_trace first |}
  | Replaced =>
      {| res_outcome := Replaced; res_state := res_state first;
         res_trace := res_trace first |}
  | Blocked =>
      {| res_outcome := Blocked; res_state := res_state first;
         res_trace := res_trace first |}
  end.

(** An event without the argument vector of its [execvp]: what is left of
    a trace when the one place the URL is handed to is blanked. *)
Definition erase_argv (ev : event) : event :=
  match ev with
  | EvExecvp p file _ ret => EvExecvp p file [] ret
  | _ => ev
  end.

(** * Properties *)

(** ** The wait status macros read back what the kernel encoded *)

Section WaitStatusFacts.

Variables (code sig : Z) (core : bool).

Lemma land_127_mod (x : Z) : Z.land x 127 = x mod 128.
Proof. change 127 with (Z.ones 7). now rewrite Z.land_ones by lia. Qed.

Lemma land_255_mod (x : Z) : Z.land x 255 = x mod 256.
Proof. change 255 with (Z.ones 8). now rewrite Z.land_ones by lia. Qed.

Lemma WIFEXITED_Exited : WIFEXITED (wstatus_of (Exited code)) = true.
Proof.
  unfold WIFEXITED, WTERMSIG, wstatus_of.
  rewrite land_127_mod, Z.shiftl_mul_pow2 by lia.
  change (2 ^ 8) with (2 * 128).
  rewrite Z.mul_assoc, Z.mod_mul by lia.
  reflexivity.
Qed.

Lemma WEXITSTATUS_Exited :
  WEXITSTATUS (wstatus_of (Exited code)) = code mod 256.
Proof.
  unfold WEXITSTATUS, wstatus_of.
  rewrite Z.shiftr_land, Z.shiftr_shiftl_l by lia.
  change (Z.shiftr 65280 8) with 255.
  change (8 - 8) with 0. rewrite Z.shiftl_0_r.
  rewrite <- Z.land_assoc. change (Z.land 255 255) with 255.
  apply land_255_mod.
Qed.

Lemma WTERMSIG_Signaled :
  WTERMSIG (wstatus_of (Signaled sig core)) = sig mod 128.
Proof.
  unfold WTERMSIG, wstatus_of.
  rewrite Z.land_lor_distr_l, <- Z.land_assoc.
  change (Z.land 127 127) with 127.
  replace (Z.land (if core then 128 else 0) 127) with 0
    by now destruct core.
  rewrite Z.lor_0_r. apply land_127_mod.
Qed.

(** Signal numbers lie between 1 and 127: a child that a signal killed is
    never taken for one that exited. *)
Hypothesis sig_range : 0 < sig < 128.

Lemma WIFEXITED_Signaled :
  WIFEXITED (wstatus_of (Signaled sig core)) = false.
Proof.
  unfold WIFEXITED.
  rewrite WTERMSIG_Signaled, Z.mod_small by lia.
  apply Z.eqb_neq. lia.
Qed.

End WaitStatusFacts.

(** ** Unfolding a call *)

Ltac run_red :=
  cbn [run run_child bind fork call execvp waitpid errno strerror err exit
       emit emits child_emit fate_of res_trace res_outcome res_state
       fst snd nth app
       st_errno st_mem st_children set_errno set_children set_mem
       Z.ltb Z.eqb Z.compare Z.opp Pos.eqb Pos.compare Pos.compare_cont
       fork_answer wait_answer stderr_of execvp_args].

(** Every way the kernel can answer [gnome_url_show]: [fork] fails, or it
    makes a child, whose [execvp] fails, starts a handler that ends, or
    starts one that never ends, while the caller's [waitpid] is cut short
    or not. *)
Ltac oracle_destruct o url :=
  destruct (os_fork o) as [?child|?fork_errno] eqn:?Hfork;
  [ destruct (os_exec o "/usr/bin/xdg-open" ["/usr/bin/xdg-open"; url])
      as [?exec_errno|[?t|]] eqn:?Hexec;
    destruct (os_wait o) as [?wait_errno|] eqn:?Hwait
  | ];
  run_red; rewrite ?lookup_insert_eq; run_red.

Ltac oracle_cases o url :=
  unfold url_show, gnome_url_show; run_red; oracle_destruct o url.

Ltac status_cases :=
  repeat match goal with
    | |- context [WIFEXITED ?w] => destruct (WIFEXITED w) eqn:?
    | |- context [WEXITSTATUS ?w =? 0] => destruct (WEXITSTATUS w =? 0) eqn:?
    end;
  run_red.

(** ** What the caller sees of the handler *)

Section Handler.

Variables (o : oracle) (s : state) (url : string) (error : Z).
Variable pid : positive.

Hypothesis fork_ok : os_fork o = ForkOk pid.
Hypothesis wait_ok : os_wait o = None.

(** A handler that exits with [code]: the call returns whether the low
    eight bits of [code] are 0, and nothing is written. *)
Lemma handler_exit_code (code : Z) :
  os_exec o xdg_open_path [xdg_open_path; url] = ExecRuns (Some (Exited code))
  ->
  res_outcome (url_show o s url error)
  = Returned (if code mod 256 =? 0 then 1 else 0)
  /\ stderr_of Caller (res_trace (url_show o s url error)) = []
  /\ stderr_of Forked (res_trace (url_show o s url error)) = [].
Proof.
  revert fork_ok wait_ok. unfold xdg_open_path.
  oracle_cases o url; intros Hf Hw He; simplify_eq.
  rewrite WIFEXITED_Exited, WEXITSTATUS_Exited.
  destruct (code mod 256 =? 0); repeat split.
Qed.

(** A handler that a signal kills: the call returns 0. *)
Lemma handler_killed (sig : Z) (core : bool) :
  0 < sig < 128 ->
  os_exec o xdg_open_path [xdg_open_path; url]
  = ExecRuns (Some (Signaled sig core)) ->
  res_outcome (url_show o s url error) = Returned 0.
Proof.
  revert fork_ok wait_ok. unfold xdg_open_path.
  oracle_cases o url; intros Hf Hw Hsig He; simplify_eq.
  rewrite WIFEXITED_Signaled by assumption. reflexivity.
Qed.

(** A handler that never ends: the call never returns, there is no
    timeout. *)
Lemma handler_never_ends :
  os_exec o xdg_open_path [xdg_open_path; url] = ExecRuns None ->
  res_outcome (url_show o s url error) = Blocked.
Proof.
  revert fork_ok wait_ok. unfold xdg_open_path.
  oracle_cases o url; intros Hf Hw He; simplify_eq.
  reflexivity.
Qed.

End Handler.

(** The two scenarios of the specification. *)
Example opens_example_com :
  res_outcome
    (url_show (handler_ends (Exited 0)) initial "https://example.com" 0)
  = Returned 1.
Proof. reflexivity. Qed.

Example declines_bogus_scheme :
  res_outcome
    (url_show (handler_ends (Exited 1)) initial "bogus://nothing" 0)
  = Returned 0
  /\ stderr_of Caller
       (res_trace
          (url_show (handler_ends (Exited 1)) initial "bogus://nothing" 0))
     = [].
Proof. split; reflexivity. Qed.

(** ** [gnome_url_show] *)

(** C1. The child was created, the wait succeeded and the child exited
    normally with status code 0: [gnome_url_show] returns 1. *)
Theorem gnome_url_show_exit_zero (o : oracle) (s : state) (url : string)
    (error pid r wstatus : Z) :
  fork_answer (res_trace (url_show o s url error)) = Some pid ->
  0 < pid ->
  wait_answer (res_trace (url_show o s url error)) = Some (r, wstatus) ->
  r <> -1 ->
  WIFEXITED wstatus = true ->
  WEXITSTATUS wstatus = 0 ->
  res_outcome (url_show o s url error) = Returned 1.
Proof.
  oracle_cases o url; intros Hpid Hpos Hans Hr Hexited Hcode;
    simplify_eq.
  rewrite Hexited, Hcode. reflexivity.
Qed.

Lemma gnome_url_show_exit_zero_witness :
  res_outcome
    (url_show (handler_ends (Exited 0)) initial "https://example.com" 0)
  = Returned 1.
Proof.
  apply (gnome_url_show_exit_zero (handler_ends (Exited 0)) initial
           "https://example.com" 0 4242 4242 0);
    solve [reflexivity | lia].
Defined.

(** C2. The child exited normally with a status code other than 0:
    [gnome_url_show] returns 0 and the process that called it writes
    nothing to the standard error stream for it; when the status is the
    handler's own (the handler was started), the child wrote nothing
    either. *)
Theorem gnome_url_show_exit_nonzero (o : oracle) (s : state) (url : string)
    (error pid r wstatus : Z) :
  fork_answer (res_trace (url_show o s url error)) = Some pid ->
  0 < pid ->
  wait_answer (res_trace (url_show o s url error)) = Some (r, wstatus) ->
  r <> -1 ->
  WIFEXITED wstatus = true ->
  WEXITSTATUS wstatus <> 0 ->
  res_outcome (url_show o s url error) = Returned 0
  /\ stderr_of Caller (res_trace (url_show o s url error)) = []
  /\ (forall fate,
        os_exec o xdg_open_path [xdg_open_path; url] = ExecRuns fate ->
        stderr_of Forked (res_trace (url_show o s url error)) = []).
Proof.
  unfold xdg_open_path.
  oracle_cases o url; intros Hpid Hpos Hans Hr Hexited Hcode;
    simplify_eq.
  - change (wstatus_of (Exited 1)) with 256. run_red.
    repeat split. intros fate Hfate. discriminate Hfate.
  - apply Z.eqb_neq in Hcode. rewrite Hexited, Hcode. run_red.
    repeat split.
Qed.

Lemma gnome_url_show_exit_nonzero_witness :
  res_outcome
    (url_show (handler_ends (Exited 1)) initial "bogus://nothing" 0)
  = Returned 0
  /\ stderr_of Caller
       (res_trace
          (url_show (handler_ends (Exited 1)) initial "bogus://nothing" 0))
     = []
  /\ (forall fate,
        os_exec (handler_ends (Exited 1)) xdg_open_path
          [xdg_open_path; "bogus://nothing"] = ExecRuns fate ->
        stderr_of Forked
          (res_trace
             (url_show (handler_ends (Exited 1)) initial "bogus://nothing" 0))
        = []).
Proof.
  apply (gnome_url_show_exit_nonzero (handler_ends (Exited 1)) initial
           "bogus://nothing" 0 4242 4242 256);
    solve [reflexivity | lia | vm_compute; discriminate].
Defined.

(** C3. The handler cannot be started: the child writes a diagnostic and
    exits at once with status 1, and the caller gets 0 back, whether its
    wait succeeds (it then sees the status of [exit(1)] and writes
    nothing itself) or not. *)
Theorem gnome_url_show_exec_fails (o : oracle) (s : state) (url : string)
    (error : Z) (pid : positive) (errnum : Z) :
  os_fork o = ForkOk pid ->
  os_exec o xdg_open_path [xdg_open_path; url] = ExecFails errnum ->
  let text :=
    err_text "gnome_url_show"
      ("spawning xdg-open failed: " +:+ os_strerror o errnum) in
  res_outcome (url_show o s url error) = Returned 0
  /\ is_diagnostic text = true
  /\ (exists rest,
        res_trace (url_show o s url error) =
          EvFork (Z.pos pid)
          :: EvExecvp Forked xdg_open_path [xdg_open_path; url] (Some (-1))
          :: EvStderr Forked text
          :: EvExit Forked 1
          :: rest
        /\ stderr_of Forked rest = []
        /\ (os_wait o = None ->
            rest = [EvWaitpid Caller (Z.pos pid) 0
                      (Some (Z.pos pid, wstatus_of (Exited 1)))]))
  /\ WIFEXITED (wstatus_of (Exited 1)) = true
  /\ WEXITSTATUS (wstatus_of (Exited 1)) = 1.
Proof.
  intros Hf He text.
  assert (Hdiag : is_diagnostic text = true) by reflexivity.
  revert Hf He. unfold xdg_open_path.
  oracle_cases o url; intros Hf He; simplify_eq;
    change (wstatus_of (Exited 1)) with 256; run_red.
  - repeat split; try assumption.
    eexists. split; [reflexivity|]. split; [reflexivity|]. discriminate.
  - repeat split; try assumption.
    eexists. split; [reflexivity|]. split; [reflexivity|]. reflexivity.
Qed.

Lemma gnome_url_show_exec_fails_witness :
  res_outcome (url_show handler_missing initial "https://example.com" 0)
  = Returned 0.
Proof.
  apply (gnome_url_show_exec_fails handler_missing initial
           "https://example.com" 0 4242%positive ENOENT);
    reflexivity.
Defined.

(** C4. The child did not exit normally (a signal killed it):
    [gnome_url_show] writes a diagnostic to the standard error stream and
    returns 0. *)
Theorem gnome_url_show_abnormal (o : oracle) (s : state) (url : string)
    (error pid r wstatus : Z) :
  fork_answer (res_trace (url_show o s url error)) = Some pid ->
  0 < pid ->
  wait_answer (res_trace (url_show o s url error)) = Some (r, wstatus) ->
  r <> -1 ->
  WIFEXITED wstatus = false ->
  res_outcome (url_show o s url error) = Returned 0
  /\ stderr_of Caller (res_trace (url_show o s url error)) =
       [err_text "gnome_url_show" "xdg-open terminated abnormally"]
  /\ is_diagnostic
       (err_text "gnome_url_show" "xdg-open terminated abnormally") = true.
Proof.
  oracle_cases o url; intros Hpid Hpos Hans Hr Hexited; simplify_eq.
  rewrite Hexited. run_red. repeat split.
Qed.

Lemma gnome_url_show_abnormal_witness :
  res_outcome
    (url_show (handler_ends (Signaled 9 false)) initial
       "https://example.com" 0)
  = Returned 0.
Proof.
  apply (gnome_url_show_abnormal (handler_ends (Signaled 9 false)) initial
           "https://example.com" 0 4242 4242 9);
    solve [reflexivity | lia].
Defined.

(** C5. [fork] fails: [gnome_url_show] writes one diagnostic to the
    standard error stream and returns 0.  The trace is the failed [fork]
    and the write, nothing more: no second [fork], no [execvp], no
    [waitpid]; the table of children is as it was. *)
Theorem gnome_url_show_fork_fails (o : oracle) (s : state) (url : string)
    (error errnum : Z) :
  os_fork o = ForkFails errnum ->
  let text :=
    err_text "gnome_url_show" ("fork failed: " +:+ os_strerror o errnum) in
  res_outcome (url_show o s url error) = Returned 0
  /\ res_trace (url_show o s url error) =
       [EvFork (-1); EvStderr Caller text]
  /\ is_diagnostic text = true
  /\ length (List.filter is_fork (res_trace (url_show o s url error))) = 1%nat
  /\ List.filter is_execvp (res_trace (url_show o s url error)) = []
  /\ List.filter is_waitpid (res_trace (url_show o s url error)) = []
  /\ st_children (res_state (url_show o s url error)) = st_children s.
Proof.
  intros Hf text.
  assert (Hdiag : is_diagnostic text = true) by reflexivity.
  revert Hf.
  oracle_cases o url; intros Hf; simplify_eq.
  repeat split; assumption.
Qed.

Lemma gnome_url_show_fork_fails_witness :
  os_fork fork_fails = ForkFails EAGAIN
  /\ res_outcome (url_show fork_fails initial "https://example.com" 0)
     = Returned 0.
Proof.
  split; [reflexivity|].
  apply (gnome_url_show_fork_fails fork_fails initial
           "https://example.com" 0 EAGAIN).
  reflexivity.
Defined.

(** C6. The caller's [waitpid] fails: [gnome_url_show] writes a
    diagnostic, made from the [errno] the call left, and returns 0. *)
Theorem gnome_url_show_wait_fails (o : oracle) (s : state) (url : string)
    (error wstatus : Z) :
  wait_answer (res_trace (url_show o s url error)) = Some (-1, wstatus) ->
  let text :=
    err_text "gnome_url_show"
      ("waitpid failed: "
       +:+ os_strerror o (st_errno (res_state (url_show o s url error)))
       +:+ newline) in
  res_outcome (url_show o s url error) = Returned 0
  /\ stderr_of Caller (res_trace (url_show o s url error)) = [text]
  /\ is_diagnostic text = true.
Proof.
  intros Hans text.
  assert (Hdiag : is_diagnostic text = true) by reflexivity.
  revert Hans Hdiag. subst text.
  oracle_cases o url; intros Hans Hdiag; simplify_eq; repeat split.
Qed.

Lemma gnome_url_show_wait_fails_witness :
  wait_answer
    (res_trace (url_show wait_interrupted initial "https://example.com" 0))
  = Some (-1, 0)
  /\ res_outcome (url_show wait_interrupted initial "https://example.com" 0)
     = Returned 0.
Proof.
  split; [reflexivity|].
  apply (gnome_url_show_wait_fails wait_interrupted initial
           "https://example.com" 0 0).
  reflexivity.
Defined.

(** C7, as stated, fails: when the wait is cut short the call returns
    and the child it made is still in the table. *)
Lemma gnome_url_show_child_left_counterexample :
  res_outcome (url_show wait_interrupted initial "https://example.com" 0)
  = Returned 0
  /\ ~ no_child_left
       (url_show wait_interrupted initial "https://example.com" 0).
Proof.
  split; [reflexivity|].
  intros Hnone. specialize (Hnone 4242 eq_refl eq_refl).
  vm_compute in Hnone. discriminate Hnone.
Qed.

(** C7, amended.  A call that made a child and returns has called
    [waitpid] once, on that child, with options 0, and not before the
    child was made; when that [waitpid] succeeded the child is out of the
    table.  When that [waitpid] failed, the call has written its
    diagnostic and returns 0 without a second wait; if the wait failed
    because a signal cut it short ([EINTR]), the child is still in the
    table when the call returns. *)
Theorem gnome_url_show_waits_for_child (o : oracle) (s : state)
    (url : string) (error pid v : Z) :
  fork_answer (res_trace (url_show o s url error)) = Some pid ->
  0 < pid ->
  res_outcome (url_show o s url error) = Returned v ->
  exists (before after : list event) (r wstatus : Z),
    res_trace (url_show o s url error) =
      EvFork pid :: before
      ++ EvWaitpid Caller pid 0 (Some (r, wstatus)) :: after
    /\ List.filter is_waitpid before = []
    /\ List.filter is_waitpid after = []
    /\ (r <> -1 -> no_child_left (url_show o s url error))
    /\ (r = -1 ->
        v = 0
        /\ stderr_of Caller (res_trace (url_show o s url error)) =
             [err_text "gnome_url_show"
                ("waitpid failed: "
                 +:+ os_strerror o
                       (st_errno (res_state (url_show o s url error)))
                 +:+ newline)]
        /\ (os_wait o = Some EINTR ->
            ~ no_child_left (url_show o s url error))).
Proof.
  unfold no_child_left.
  oracle_cases o url; intros Hpid Hpos Hret; simplify_eq; try lia;
    try change (wstatus_of (Exited 1)) with 256; status_cases;
    first [ eexists [_; _; _], _, _, _; split; [cbn [app]; reflexivity|]
          | eexists [_], _, _, _; split; [cbn [app]; reflexivity|] ];
    (split; [reflexivity|]); (split; [reflexivity|]); split.
  all: try (intros _ pid' Hpid' _; simplify_eq; apply lookup_delete_eq).
  all: try (intros Hr; exfalso; apply Hr; reflexivity).
  all: try (intros Hr; discriminate Hr).
  all: intros _; simplify_eq; (split; [reflexivity|]);
    (split; [reflexivity|]);
    intros _ Hnone; specialize (Hnone _ eq_refl Hpos);
    rewrite lookup_insert_eq in Hnone; discriminate Hnone.
Qed.

Lemma gnome_url_show_waits_for_child_witness :
  exists (before after : list event) (r wstatus : Z),
    res_trace
      (url_show wait_interrupted initial "https://example.com" 0) =
      EvFork 4242 :: before
      ++ EvWaitpid Caller 4242 0 (Some (r, wstatus)) :: after
    /\ List.filter is_waitpid before = []
    /\ List.filter is_waitpid after = []
    /\ (r <> -1 ->
        no_child_left
          (url_show wait_interrupted initial "https://example.com" 0))
    /\ (r = -1 ->
        0 = 0
        /\ stderr_of Caller
             (res_trace
                (url_show wait_interrupted initial "https://example.com" 0))
           = [err_text "gnome_url_show"
                ("waitpid failed: "
                 +:+ os_strerror wait_interrupted
                       (st_errno
                          (res_state
                             (url_show wait_interrupted initial
                                "https://example.com" 0)))
                 +:+ newline)]
        /\ (os_wait wait_interrupted = Some EINTR ->
            ~ no_child_left
                (url_show wait_interrupted initial "https://example.com" 0))).
Proof.
  apply (gnome_url_show_waits_for_child wait_interrupted initial
           "https://example.com" 0 4242 0);
    solve [reflexivity | lia].
Defined.

(** C9. Whatever the caller passes for [error], null or not, the call
    writes nowhere in the caller's memory: no store is made, by the
    caller or by the child, and the slot [error] refers to holds what it
    held.  The program itself is the same for every [error]. *)
Theorem gnome_url_show_error_untouched (o : oracle) (s : state)
    (url : string) (error : Z) :
  st_mem (res_state (url_show o s url error)) = st_mem s
  /\ st_mem (res_state (url_show o s url error)) !! error = st_mem s !! error
  /\ List.filter is_store (res_trace (url_show o s url error)) = []
  /\ (forall error' : Z, gnome_url_show url error' = gnome_url_show url error).
Proof.
  assert (Hsame : forall error' : Z,
             gnome_url_show url error' = gnome_url_show url error)
    by reflexivity.
  revert Hsame.
  oracle_cases o url; intros Hsame;
    try change (wstatus_of (Exited 1)) with 256; status_cases;
    repeat split; exact Hsame.
Qed.

(** ** [gnome_vfs_init] *)

(** C8. [gnome_vfs_init] takes nothing and returns 1, which is not 0, on
    every call; it makes no call to the system, and leaves the process as
    it found it. *)
Theorem gnome_vfs_init_returns_one (o : oracle) (s : state) :
  vfs_init o s =
    {| res_outcome := Returned 1; res_state := s; res_trace := [] |}
  /\ 1 <> 0.
Proof. split; [reflexivity | discriminate]. Qed.

(** ** The URL *)

(** C10. The URL is not read: it is handed, as it was given, to the one
    [execvp], the child's, whenever a child is made, and goes nowhere
    else.  Two calls, on any two URLs, in any two processes, to which the
    kernel and the handler answer the same ([fork], [waitpid], what
    [execvp] finds and how the handler ends) end the same way, and leave
    the same trace but for that argument vector.  So do, as to the value
    returned, two calls that got the same answers from [fork] and from
    [waitpid] (return value and status). *)
Theorem gnome_url_show_url_independent (o1 o2 : oracle) (s1 s2 : state)
    (url1 url2 : string) (error1 error2 : Z) :
  execvp_args (res_trace (url_show o1 s1 url1 error1)) =
    match os_fork o1 with
    | ForkOk _ => [(xdg_open_path, [xdg_open_path; url1])]
    | ForkFails _ => []
    end
  /\ execvp_args (res_trace (url_show o2 s2 url2 error2)) =
       match os_fork o2 with
       | ForkOk _ => [(xdg_open_path, [xdg_open_path; url2])]
       | ForkFails _ => []
       end
  /\ (os_fork o1 = os_fork o2 ->
      os_wait o1 = os_wait o2 ->
      os_exec o1 xdg_open_path [xdg_open_path; url1] =
        os_exec o2 xdg_open_path [xdg_open_path; url2] ->
      res_outcome (url_show o1 s1 url1 error1) =
        res_outcome (url_show o2 s2 url2 error2)
      /\ ((forall errnum, os_strerror o1 errnum = os_strerror o2 errnum) ->
          os_junk o1 = os_junk o2 ->
          List.map erase_argv (res_trace (url_show o1 s1 url1 error1)) =
            List.map erase_argv (res_trace (url_show o2 s2 url2 error2))))
  /\ (fork_answer (res_trace (url_show o1 s1 url1 error1)) =
        fork_answer (res_trace (url_show o2 s2 url2 error2)) ->
      wait_answer (res_trace (url_show o1 s1 url1 error1)) =
        wait_answer (res_trace (url_show o2 s2 url2 error2)) ->
      res_outcome (url_show o1 s1 url1 error1) =
        res_outcome (url_show o2 s2 url2 error2)).
Proof.
  unfold xdg_open_path, url_show, gnome_url_show. run_red.
  oracle_destruct o1 url1; oracle_destruct o2 url2;
    try change (wstatus_of (Exited 1)) with 256 in *;
    change (WIFEXITED 256) with true in *;
    change (WEXITSTATUS 256 =? 0) with false in *;
    run_red;
    (split; [status_cases; reflexivity|]);
    (split; [status_cases; reflexivity|]);
    split.
  (* the same answers of the kernel and of the handler *)
  all: try (intros Hfork_eq Hwait_eq Hexec_eq; simplify_eq;
            status_cases;
            (split; [reflexivity|]);
            intros Hstrerror Hjunk;
            rewrite ?Hstrerror, ?Hjunk; reflexivity).
  (* the same answers read off the traces *)
  all: intros Hforks Hwaits; simplify_eq;
    repeat match goal with
      | H : wstatus_of _ = _ |- _ => rewrite H in *; clear H
      | H : _ = wstatus_of _ |- _ => rewrite <- H in *; clear H
      end;
    change (WIFEXITED 256) with true in *;
    change (WEXITSTATUS 256 =? 0) with false in *;
    status_cases; reflexivity.
Qed.

Lemma gnome_url_show_url_independent_witness :
  res_outcome
    (url_show (handler_ends (Exited 0)) initial "https://example.com" 0) =
  res_outcome
    (url_show (handler_ends (Exited 0)) initial "bogus://nothing" 8)
  /\ List.map erase_argv
       (res_trace
          (url_show (handler_ends (Exited 0)) initial
             "https://example.com" 0)) =
     List.map erase_argv
       (res_trace
          (url_show (handler_ends (Exited 0)) initial "bogus://nothing" 8)).
Proof.
  destruct (gnome_url_show_url_independent
              (handler_ends (Exited 0)) (handler_ends (Exited 0))
              initial initial "https://example.com" "bogus://nothing" 0 8)
    as (_ & _ & Hsame & _).
  destruct (Hsame eq_refl eq_refl eq_refl) as [Houtcome Htrace].
  split; [exact Houtcome | apply Htrace; reflexivity].
Defined.

(** * More on [gnome_url_show] *)

(** X1. Whatever the caller does after the call, the child does none of
    it: the child is replaced by the handler or exits, so the code after
    the call runs once, in the caller, with the value the call returned,
    and not at all when the call blocks. *)
Theorem gnome_url_show_child_never_continues (R : Type) (f : Z -> prog R)
    (o : oracle) (s : state) (url : string) (error : Z) :
  run o (x <- gnome_url_show url error ;; f x) s =
  continue_with o (url_show o s url error) f.
Proof.
  unfold continue_with.
  oracle_cases o url;
    try change (wstatus_of (Exited 1)) with 256; status_cases;
    reflexivity.
Qed.

(** The same does not hold of [fork] alone: its child runs what follows. *)
Example fork_alone_child_continues :
  run (handler_ends (Exited 0))
    (x <- fork ;; call (Fprintf_stderr "after")) initial
  <> continue_with (handler_ends (Exited 0))
       (run (handler_ends (Exited 0)) fork initial)
       (fun _ => call (Fprintf_stderr "after")).
Proof. vm_compute. discriminate. Qed.

(** X2. On every path the call makes one [fork], at most one [execvp]
    and at most one [waitpid].  The [execvp] is the child's, never the
    caller's; the [waitpid] is the caller's, with options 0, on the pid
    that [fork] gave back. *)
Theorem gnome_url_show_call_counts (o : oracle) (s : state) (url : string)
    (error : Z) :
  let tr := res_trace (url_show o s url error) in
  length (List.filter is_fork tr) = 1%nat
  /\ (length (List.filter is_execvp tr) <= 1)%nat
  /\ (length (List.filter is_waitpid tr) <= 1)%nat
  /\ (forall p file argv ret, In (EvExecvp p file argv ret) tr -> p = Forked)
  /\ (forall p pid options ret,
        In (EvWaitpid p pid options ret) tr ->
        p = Caller /\ options = 0 /\ fork_answer tr = Some pid).
Proof.
  oracle_cases o url;
    try change (wstatus_of (Exited 1)) with 256; status_cases;
    cbn [List.filter is_fork is_execvp is_waitpid length];
    (split; [reflexivity|]); (split; [lia|]); (split; [lia|]);
    split; intros; cbn [In] in *;
    repeat match goal with
      | H : _ \/ _ |- _ => destruct H
      | H : False |- _ => destruct H
      end;
    simplify_eq; repeat split.
Qed.

(** X3. The call never ends the calling process and never replaces its
    program: it returns 0 or 1, or blocks. *)
Theorem gnome_url_show_caller_survives (o : oracle) (s : state)
    (url : string) (error : Z) :
  (res_outcome (url_show o s url error) = Returned 0
   \/ res_outcome (url_show o s url error) = Returned 1
   \/ res_outcome (url_show o s url error) = Blocked)
  /\ (forall status,
        ~ In (EvExit Caller status) (res_trace (url_show o s url error))).
Proof.
  oracle_cases o url;
    try change (wstatus_of (Exited 1)) with 256; status_cases;
    (split; [auto|]); intros status Hin; cbn [In] in Hin;
    repeat match goal with
      | H : _ \/ _ |- _ => destruct H
      | H : False |- _ => destruct H
      end;
    discriminate.
Qed.

(** X4. The call returns 1 only when the handler was started, the wait
    gave back the child's pid and a status that reads as a normal exit
    with code 0; and then nothing was written to the standard error
    stream, by the caller or by the child. *)
Theorem gnome_url_show_success_iff (o : oracle) (s : state) (url : string)
    (error : Z) :
  (res_outcome (url_show o s url error) = Returned 1 <->
   exists pid wstatus,
     fork_answer (res_trace (url_show o s url error)) = Some pid
     /\ 0 < pid
     /\ wait_answer (res_trace (url_show o s url error))
        = Some (pid, wstatus)
     /\ WIFEXITED wstatus = true
     /\ WEXITSTATUS wstatus = 0)
  /\ (res_outcome (url_show o s url error) = Returned 1 ->
      (exists t,
         os_exec o xdg_open_path [xdg_open_path; url] = ExecRuns (Some t))
      /\ stderr_of Caller (res_trace (url_show o s url error)) = []
      /\ stderr_of Forked (res_trace (url_show o s url error)) = []).
Proof.
  unfold xdg_open_path.
  oracle_cases o url;
    try change (wstatus_of (Exited 1)) with 256;
    (split; [split|]).
  all: try (intros (pid & wstatus & Hf & Hpos & Hw & He & Hc);
            simplify_eq; try lia;
            try (rewrite He, Hc; reflexivity)).
  all: try (intros Hret; discriminate Hret).
  all: try (destruct (WIFEXITED (wstatus_of t)) eqn:He;
            [destruct (WEXITSTATUS (wstatus_of t) =? 0) eqn:Hc|];
            run_red; intros Hret; simplify_eq).
  - exists (Z.pos child), (wstatus_of t).
    apply Z.eqb_eq in Hc. repeat split; auto; lia.
  - repeat split. now exists t.
Qed.

(** X5. A failure about which nothing was written, by the caller or by
    the child, is a handler that was started and exited normally with a
    code other than 0: every other failure leaves a diagnostic. *)
Theorem gnome_url_show_silent_failure (o : oracle) (s : state)
    (url : string) (error : Z) :
  res_outcome (url_show o s url error) = Returned 0 ->
  stderr_of Caller (res_trace (url_show o s url error)) = [] ->
  stderr_of Forked (res_trace (url_show o s url error)) = [] ->
  exists pid wstatus t,
    os_exec o xdg_open_path [xdg_open_path; url] = ExecRuns (Some t)
    /\ wait_answer (res_trace (url_show o s url error))
       = Some (pid, wstatus)
    /\ pid <> -1
    /\ WIFEXITED wstatus = true
    /\ WEXITSTATUS wstatus <> 0.
Proof.
  unfold xdg_open_path.
  oracle_cases o url;
    try change (wstatus_of (Exited 1)) with 256; try discriminate.
  destruct (WIFEXITED (wstatus_of t)) eqn:He;
    [destruct (WEXITSTATUS (wstatus_of t) =? 0) eqn:Hc|];
    run_red; try discriminate.
  intros _ _ _. exists (Z.pos child), (wstatus_of t), t.
  apply Z.eqb_neq in Hc. repeat split; auto; lia.
Qed.

Lemma gnome_url_show_silent_failure_witness :
  exists pid wstatus t,
    os_exec (handler_ends (Exited 1)) xdg_open_path
      [xdg_open_path; "bogus://nothing"] = ExecRuns (Some t)
    /\ wait_answer
         (res_trace
            (url_show (handler_ends (Exited 1)) initial "bogus://nothing" 0))
       = Some (pid, wstatus)
    /\ pid <> -1
    /\ WIFEXITED wstatus = true
    /\ WEXITSTATUS wstatus <> 0.
Proof.
  apply (gnome_url_show_silent_failure (handler_ends (Exited 1)) initial
           "bogus://nothing" 0);
    reflexivity.
Defined.

(** X6. Everything the call writes to the standard error stream is a
    line of the [err] macro, with the name of the function before it, and
    a process writes at most one. *)
Theorem gnome_url_show_diagnostics (o : oracle) (s : state) (url : string)
    (error : Z) (p : proc) :
  (length (stderr_of p (res_trace (url_show o s url error))) <= 1)%nat
  /\ (forall text,
        In text (stderr_of p (res_trace (url_show o s url error))) ->
        is_diagnostic text = true).
Proof.
  destruct p;
    oracle_cases o url;
    try change (wstatus_of (Exited 1)) with 256; status_cases;
    cbn [length]; (split; [lia|]); intros text Hin; cbn [In] in Hin;
    repeat match goal with
      | H : _ \/ _ |- _ => destruct H
      | H : False |- _ => destruct H
      end;
    subst text; reflexivity.
Qed.

(** X7. The call touches the table of children at the pid of its own
    child only: a child of the caller that the call did not make is
    neither reaped nor changed. *)
Theorem gnome_url_show_other_children (o : oracle) (s : state)
    (url : string) (error pid : Z) :
  fork_answer (res_trace (url_show o s url error)) <> Some pid ->
  st_children (res_state (url_show o s url error)) !! pid
  = st_children s !! pid.
Proof.
  oracle_cases o url;
    try change (wstatus_of (Exited 1)) with 256; status_cases;
    intros Hpid;
    try match goal with
      | H : Some (Z.pos ?c) <> Some pid |- _ =>
          assert (Hne : Z.pos c <> pid) by congruence
      end;
    rewrite ?lookup_delete_ne, ?lookup_insert_ne by assumption;
    reflexivity.
Qed.

Lemma gnome_url_show_other_children_witness :
  st_children
    (res_state
       (url_show (handler_ends (Exited 0))
          {| st_errno := 0; st_mem := ∅;
             st_children := {[ 7 := Some (Exited 2) ]} |}
          "https://example.com" 0)) !! 7
  = Some (Some (Exited 2)).
Proof.
  rewrite (gnome_url_show_other_children (handler_ends (Exited 0))
             {| st_errno := 0; st_mem := ∅;
                st_children := {[ 7 := Some (Exited 2) ]} |}
             "https://example.com" 0 7).
  - reflexivity.
  - vm_compute. discriminate.
Defined.

(** X8. The call blocks, and never returns, exactly when a child was
    made, the handler was started and never ends, and the wait is not cut
    short: there is no timeout. *)
Theorem gnome_url_show_blocks_iff (o : oracle) (s : state) (url : string)
    (error : Z) :
  res_outcome (url_show o s url error) = Blocked <->
  (exists pid, os_fork o = ForkOk pid)
  /\ os_exec o xdg_open_path [xdg_open_path; url] = ExecRuns None
  /\ os_wait o = None.
Proof.
  unfold xdg_open_path.
  oracle_cases o url;
    try change (wstatus_of (Exited 1)) with 256; status_cases;
    split;
    try (intros Hb; discriminate Hb);
    try (intros ([pid Hp] & He & Hw); congruence).
  intros _. repeat split. now exists child.
Qed.

(** X9. The call reads nothing of the state it is called in: not a stale
    [errno] (it reads [errno] only after a call of its own has failed and
    set it), not the caller's memory, not the caller's other children.
    From any two states it ends the same way and leaves the same trace,
    diagnostics included. *)
Theorem gnome_url_show_state_independent (o : oracle) (s1 s2 : state)
    (url : string) (error : Z) :
  res_outcome (url_show o s1 url error) = res_outcome (url_show o s2 url error)
  /\ res_trace (url_show o s1 url error) = res_trace (url_show o s2 url error).
Proof.
  oracle_cases o url;
    try change (wstatus_of (Exited 1)) with 256; status_cases;
    split; reflexivity.
Qed.
